(** * imggg: generic points and rectangles (geom.go)

    A shallow embedding of [Point[V]] and [Rectangle[V]] of package imggg,
    for the integer instantiations of the type parameter [V].  A scalar of
    type [V] is a [Z] inside the range of [V]; every arithmetic operator of
    the source is followed by the wrap-around of [V].  The two floating-point
    instantiations ([float32], [float64]) are outside this model. *)

From Stdlib Require Import ZArith Bool Lia.

Local Open Scope Z_scope.
Local Open Scope bool_scope.

(** ** The scalar types of the [Number] constraint (integers only) *)

Inductive Number : Set :=
| TInt | TInt8 | TInt16 | TInt32 | TInt64
| TUint | TUint8 | TUint16 | TUint32 | TUint64 | TUintptr.

Definition is_signed (t : Number) : bool :=
  match t with
  | TInt | TInt8 | TInt16 | TInt32 | TInt64 => true
  | _ => false
  end.

(** [int], [uint] and [uintptr] are taken at their 64-bit size. *)
Definition bits (t : Number) : Z :=
  match t with
  | TInt8 | TUint8 => 8
  | TInt16 | TUint16 => 16
  | TInt32 | TUint32 => 32
  | TInt | TInt64 | TUint | TUint64 | TUintptr => 64
  end.

Definition min_val (t : Number) : Z :=
  if is_signed t then - 2 ^ (bits t - 1) else 0.

Definition max_val (t : Number) : Z :=
  if is_signed t then 2 ^ (bits t - 1) - 1 else 2 ^ bits t - 1.

(** Reduction of an ideal integer to its representative in [t]
    (two's complement for the signed types). *)
Definition wrap (t : Number) (z : Z) : Z :=
  if is_signed t
  then (z + 2 ^ (bits t - 1)) mod 2 ^ bits t - 2 ^ (bits t - 1)
  else z mod 2 ^ bits t.

Definition in_range (t : Number) (z : Z) : Prop :=
  min_val t <= z <= max_val t.

(** Go's [+], [-], [*] and [/] on [V].  Integer division truncates toward
    zero; it is used by the rectangle code with the constant divisor 2. *)
Definition add (t : Number) (a b : Z) : Z := wrap t (a + b).
Definition sub (t : Number) (a b : Z) : Z := wrap t (a - b).
Definition mul (t : Number) (a b : Z) : Z := wrap t (a * b).
Definition quo (t : Number) (a b : Z) : Z := wrap t (Z.quot a b).

(** ** Points *)

Record Point : Set := mkPoint { X : Z; Y : Z }.

Record Rectangle : Set := mkRectangle { Min : Point; Max : Point }.

(** Assignments to a field of a local copy ([p.X = v], [r.Min.X = v], ...). *)
Definition set_X (p : Point) (v : Z) : Point := mkPoint v (Y p).
Definition set_Y (p : Point) (v : Z) : Point := mkPoint (X p) v.
Definition set_MinX (r : Rectangle) (v : Z) : Rectangle :=
  mkRectangle (set_X (Min r) v) (Max r).
Definition set_MinY (r : Rectangle) (v : Z) : Rectangle :=
  mkRectangle (set_Y (Min r) v) (Max r).
Definition set_MaxX (r : Rectangle) (v : Z) : Rectangle :=
  mkRectangle (Min r) (set_X (Max r) v).
Definition set_MaxY (r : Rectangle) (v : Z) : Rectangle :=
  mkRectangle (Min r) (set_Y (Max r) v).

Definition point_in_range (t : Number) (p : Point) : Prop :=
  in_range t (X p) /\ in_range t (Y p).

Definition rect_in_range (t : Number) (r : Rectangle) : Prop :=
  point_in_range t (Min r) /\ point_in_range t (Max r).

Definition Pt (x y : Z) : Point := mkPoint x y.

Definition Point_Add (t : Number) (p q : Point) : Point :=
  mkPoint (add t (X p) (X q)) (add t (Y p) (Y q)).

Definition Point_Sub (t : Number) (p q : Point) : Point :=
  mkPoint (sub t (X p) (X q)) (sub t (Y p) (Y q)).

Definition Point_Mul (t : Number) (p : Point) (k : Z) : Point :=
  mkPoint (mul t (X p) k) (mul t (Y p) k).

(** Integer division by zero panics: [None]. *)
Definition Point_Div (t : Number) (p : Point) (k : Z) : option Point :=
  if k =? 0 then None
  else Some (mkPoint (quo t (X p) k) (quo t (Y p) k)).

Definition Point_In (p : Point) (r : Rectangle) : bool :=
  (X (Min r) <=? X p) && (X p <? X (Max r)) &&
  (Y (Min r) <=? Y p) && (Y p <? Y (Max r)).

(** [p == q] on the struct: both fields compared. *)
Definition Point_Eq (p q : Point) : bool :=
  (X p =? X q) && (Y p =? Y q).

(** ** Rectangles *)

Definition Rectangle_Dx (t : Number) (r : Rectangle) : Z :=
  sub t (X (Max r)) (X (Min r)).

Definition Rectangle_Dy (t : Number) (r : Rectangle) : Z :=
  sub t (Y (Max r)) (Y (Min r)).

Definition Rectangle_Size (t : Number) (r : Rectangle) : Point :=
  mkPoint (sub t (X (Max r)) (X (Min r))) (sub t (Y (Max r)) (Y (Min r))).

Definition Rectangle_Add (t : Number) (r : Rectangle) (p : Point) : Rectangle :=
  mkRectangle
    (mkPoint (add t (X (Min r)) (X p)) (add t (Y (Min r)) (Y p)))
    (mkPoint (add t (X (Max r)) (X p)) (add t (Y (Max r)) (Y p))).

Definition Rectangle_Sub (t : Number) (r : Rectangle) (p : Point) : Rectangle :=
  mkRectangle
    (mkPoint (sub t (X (Min r)) (X p)) (sub t (Y (Min r)) (Y p)))
    (mkPoint (sub t (X (Max r)) (X p)) (sub t (Y (Max r)) (Y p))).

Definition Rectangle_Empty (r : Rectangle) : bool :=
  (X (Min r) >=? X (Max r)) || (Y (Min r) >=? Y (Max r)).

(** The zero value [Rectangle[V]{}]. *)
Definition ZR : Rectangle := mkRectangle (mkPoint 0 0) (mkPoint 0 0).

Definition Rectangle_Inset (t : Number) (r : Rectangle) (n : Z) : Rectangle :=
  let r :=
    if Rectangle_Dx t r <? mul t 2 n then
      let r := set_MinX r (quo t (add t (X (Min r)) (X (Max r))) 2) in
      set_MaxX r (X (Min r))
    else
      let r := set_MinX r (add t (X (Min r)) n) in
      set_MaxX r (sub t (X (Max r)) n) in
  let r :=
    if Rectangle_Dy t r <? mul t 2 n then
      let r := set_MinY r (quo t (add t (Y (Min r)) (Y (Max r))) 2) in
      set_MaxY r (Y (Min r))
    else
      let r := set_MinY r (add t (Y (Min r)) n) in
      set_MaxY r (sub t (Y (Max r)) n) in
  r.

Definition Rectangle_Intersect (r s : Rectangle) : Rectangle :=
  let r := if X (Min r) <? X (Min s) then set_MinX r (X (Min s)) else r in
  let r := if Y (Min r) <? Y (Min s) then set_MinY r (Y (Min s)) else r in
  let r := if X (Max r) >? X (Max s) then set_MaxX r (X (Max s)) else r in
  let r := if Y (Max r) >? Y (Max s) then set_MaxY r (Y (Max s)) else r in
  if Rectangle_Empty r then ZR else r.

Definition Rectangle_Union (r s : Rectangle) : Rectangle :=
  if Rectangle_Empty r then s
  else if Rectangle_Empty s then r
  else
    let r := if X (Min r) >? X (Min s) then set_MinX r (X (Min s)) else r in
    let r := if Y (Min r) >? Y (Min s) then set_MinY r (Y (Min s)) else r in
    let r := if X (Max r) <? X (Max s) then set_MaxX r (X (Max s)) else r in
    let r := if Y (Max r) <? Y (Max s) then set_MaxY r (Y (Max s)) else r in
    r.

(** [r == s] on the struct: the four coordinates compared. *)
Definition rect_eqb (r s : Rectangle) : bool :=
  Point_Eq (Min r) (Min s) && Point_Eq (Max r) (Max s).

Definition Rectangle_Eq (r s : Rectangle) : bool :=
  rect_eqb r s || (Rectangle_Empty r && Rectangle_Empty s).

Definition Rectangle_Overlaps (r s : Rectangle) : bool :=
  negb (Rectangle_Empty r) && negb (Rectangle_Empty s) &&
  (X (Min r) <? X (Max s)) && (X (Min s) <? X (Max r)) &&
  (Y (Min r) <? Y (Max s)) && (Y (Min s) <? Y (Max r)).

Definition Rectangle_In (r s : Rectangle) : bool :=
  if Rectangle_Empty r then true
  else
    (X (Min s) <=? X (Min r)) && (X (Max r) <=? X (Max s)) &&
    (Y (Min s) <=? Y (Min r)) && (Y (Max r) <=? Y (Max s)).

Definition Rectangle_Canon (r : Rectangle) : Rectangle :=
  let r :=
    if X (Max r) <? X (Min r)
    then mkRectangle (set_X (Min r) (X (Max r))) (set_X (Max r) (X (Min r)))
    else r in
  let r :=
    if Y (Max r) <? Y (Min r)
    then mkRectangle (set_Y (Min r) (Y (Max r))) (set_Y (Max r) (Y (Min r)))
    else r in
  r.

Definition Rectangle_Bounds (r : Rectangle) : Rectangle := r.

Definition Rect (x0 y0 x1 y1 : Z) : Rectangle :=
  let '(x0, x1) := if x0 >? x1 then (x1, x0) else (x0, x1) in
  let '(y0, y1) := if y0 >? y1 then (y1, y0) else (y0, y1) in
  mkRectangle (mkPoint x0 y0) (mkPoint x1 y1).

(** [Mod]: the two calls of [math.Mod] are expression statements whose
    value is dropped; they neither change [p] nor panic. *)
Definition Point_Mod (t : Number) (p : Point) (r : Rectangle) : Point :=
  let w := Rectangle_Dx t r in
  let h := Rectangle_Dy t r in
  let p := Point_Sub t p (Min r) in
  let p := if X p <? 0 then set_X p (add t (X p) w) else p in
  let p := if Y p <? 0 then set_Y p (add t (Y p) h) else p in
  Point_Add t p (Min r).

(** ** Predicates of the specification *)

Definition well_formed (r : Rectangle) : Prop :=
  X (Min r) <= X (Max r) /\ Y (Min r) <= Y (Max r).

(** The bounds [Intersect] is specified to compute: the component-wise
    maximum of the two [Min] corners and minimum of the two [Max] corners. *)
Definition tightest_bound (r s : Rectangle) : Rectangle :=
  mkRectangle
    (mkPoint (Z.max (X (Min r)) (X (Min s))) (Z.max (Y (Min r)) (Y (Min s))))
    (mkPoint (Z.min (X (Max r)) (X (Max s))) (Z.min (Y (Max r)) (Y (Max s)))).

(** The specification of [Inset] on one axis [lo, hi): shrink by [n] on both
    sides, unless the dimension [hi - lo] is less than [2n], where both ends
    become the midpoint [(lo + hi) / 2].  Arithmetic is that of [V]. *)
Definition inset_axis (t : Number) (lo hi n : Z) : Z * Z :=
  if sub t hi lo <? mul t 2 n
  then (quo t (add t lo hi) 2, quo t (add t lo hi) 2)
  else (add t lo n, sub t hi n).

Definition Inset_spec (t : Number) (r : Rectangle) (n : Z) : Rectangle :=
  mkRectangle
    (mkPoint (fst (inset_axis t (X (Min r)) (X (Max r)) n))
             (fst (inset_axis t (Y (Min r)) (Y (Max r)) n)))
    (mkPoint (snd (inset_axis t (X (Min r)) (X (Max r)) n))
             (snd (inset_axis t (Y (Min r)) (Y (Max r)) n))).

(** What [Mod] computes on one axis: the offset from [lo], moved up by one
    dimension when negative, added back to [lo].  No remainder is taken. *)
Definition mod_axis (t : Number) (v lo hi : Z) : Z :=
  add t (if sub t v lo <? 0 then add t (sub t v lo) (sub t hi lo)
         else sub t v lo) lo.

(** [Std]: the conversions [int(p.X)] and [int(p.Y)]; the fields of
    [image.Point] are of type [int]. *)
Definition Point_Std (p : Point) : Point :=
  mkPoint (wrap TInt (X p)) (wrap TInt (Y p)).

Definition Rectangle_Std (r : Rectangle) : Rectangle :=
  mkRectangle (Point_Std (Min r)) (Point_Std (Max r)).

(** The bounds [Union] computes for two non-empty operands: the
    component-wise minimum of the [Min] corners and maximum of the [Max]
    corners. *)
Definition widest_bound (r s : Rectangle) : Rectangle :=
  mkRectangle
    (mkPoint (Z.min (X (Min r)) (X (Min s))) (Z.min (Y (Min r)) (Y (Min s))))
    (mkPoint (Z.max (X (Max r)) (X (Max s))) (Z.max (Y (Max r)) (Y (Max s)))).

(** No operation of [Inset] on the axis [lo, hi) overflows [V]. *)
Definition inset_fits (t : Number) (lo hi n : Z) : Prop :=
  in_range t (hi - lo) /\ in_range t (2 * n) /\ in_range t (lo + hi)
  /\ in_range t (lo + n) /\ in_range t (hi - n).

(** ** Proof support *)

Section Scalar.
Variable t : Number.

Lemma two_pow_bits_pos :
  0 < 2 ^ (bits t - 1) /\ 2 ^ bits t = 2 * 2 ^ (bits t - 1).
Proof. destruct t; cbn; lia. Qed.

Lemma wrap_id (z : Z) : in_range t z -> wrap t z = z.
Proof.
  unfold in_range, min_val, max_val, wrap.
  destruct two_pow_bits_pos as [Hpos Hdbl].
  destruct (is_signed t); intros Hz.
  - rewrite Z.mod_small by lia. lia.
  - apply Z.mod_small. lia.
Qed.

Lemma wrap_in_range (z : Z) : in_range t (wrap t z).
Proof.
  unfold in_range, min_val, max_val, wrap.
  destruct two_pow_bits_pos as [Hpos Hdbl].
  destruct (is_signed t).
  - pose proof (Z.mod_pos_bound (z + 2 ^ (bits t - 1)) (2 ^ bits t)). lia.
  - pose proof (Z.mod_pos_bound z (2 ^ bits t)). lia.
Qed.

Lemma in_range_0 : in_range t 0.
Proof.
  unfold in_range, min_val, max_val.
  destruct two_pow_bits_pos. destruct (is_signed t); lia.
Qed.

Lemma in_range_between (a b z : Z) :
  in_range t a -> in_range t b -> a <= z <= b -> in_range t z.
Proof. unfold in_range. lia. Qed.

Lemma mul_2_0 : mul t 2 0 = 0.
Proof. unfold mul. apply wrap_id, in_range_0. Qed.

Lemma add_0_r (a : Z) : in_range t a -> add t a 0 = a.
Proof. intros Ha. unfold add. rewrite Z.add_0_r. apply wrap_id, Ha. Qed.

Lemma sub_0_r (a : Z) : in_range t a -> sub t a 0 = a.
Proof. intros Ha. unfold sub. rewrite Z.sub_0_r. apply wrap_id, Ha. Qed.
End Scalar.

(** Case analysis on the comparisons of a goal, one at a time, reducing the
    field accesses that each branch exposes. *)
Ltac geom_unfold :=
  unfold Rectangle_Intersect, Rectangle_Union, Rectangle_Eq, rect_eqb,
    Rectangle_Overlaps, Rectangle_In, Rectangle_Empty, Rectangle_Canon,
    Point_In, Point_Eq, Rect, ZR, Pt, tightest_bound, well_formed,
    set_MinX, set_MinY, set_MaxX, set_MaxY, set_X, set_Y in *.

Ltac geom_fields := cbn [X Y Min Max andb orb negb] in *.

Ltac geom_case :=
  match goal with
  | |- context [Z.gtb ?a ?b] => rewrite (Z.gtb_ltb a b)
  | |- context [Z.geb ?a ?b] => rewrite (Z.geb_leb a b)
  | |- context [Z.ltb ?a ?b] => destruct (Z.ltb_spec a b)
  | |- context [Z.leb ?a ?b] => destruct (Z.leb_spec a b)
  | |- context [Z.eqb ?a ?b] => destruct (Z.eqb_spec a b)
  end.

Ltac geom_cases := geom_unfold; geom_fields; repeat (geom_case; geom_fields).

Ltac geom_solve :=
  geom_cases;
  repeat match goal with |- _ /\ _ => split | |- _ <-> _ => split end;
  intros;
  try reflexivity; try discriminate; try lia; try congruence;
  try (f_equal; f_equal; lia).

Lemma rect_eqb_eq (r s : Rectangle) : rect_eqb r s = true <-> r = s.
Proof.
  destruct r as [[a b] [c d]], s as [[a' b'] [c' d']].
  geom_cases; split; intros H; try reflexivity; try discriminate H;
    try congruence; try (f_equal; f_equal; lia).
Qed.

Lemma Rectangle_Empty_true (r : Rectangle) :
  Rectangle_Empty r = true <-> X (Max r) <= X (Min r) \/ Y (Max r) <= Y (Min r).
Proof. destruct r as [[a b] [c d]]. geom_solve. Qed.

Lemma Rectangle_Empty_false (r : Rectangle) :
  Rectangle_Empty r = false <-> X (Min r) < X (Max r) /\ Y (Min r) < Y (Max r).
Proof. destruct r as [[a b] [c d]]. geom_solve. Qed.


(** ** Containment of a point *)

(** C8: [In(p, r)] is true exactly when [r.Min.X <= p.X < r.Max.X] and
    [r.Min.Y <= p.Y < r.Max.Y]; it is false for every point when [r] is
    empty; [Pt(2,2)] is in [Rect(0,0,5,5)] and [Pt(5,5)], the excluded [Max]
    corner, is not. *)
Theorem Point_In_half_open (p : Point) (r : Rectangle) :
  (Point_In p r = true <->
     X (Min r) <= X p < X (Max r) /\ Y (Min r) <= Y p < Y (Max r))
  /\ (Rectangle_Empty r = true -> Point_In p r = false)
  /\ Point_In (Pt 2 2) (Rect 0 0 5 5) = true
  /\ Point_In (Pt 5 5) (Rect 0 0 5 5) = false.
Proof.
  split; [|split; [|split; reflexivity]].
  - destruct p as [x y], r as [[a b] [c d]]. geom_solve.
  - destruct p as [x y], r as [[a b] [c d]]. geom_unfold. geom_fields.
    rewrite !Z.geb_leb.
    destruct (Z.leb_spec c a), (Z.leb_spec d b); cbn [orb]; intros He;
      try discriminate He; geom_solve.
Qed.

(** ** Well-formedness *)



(** ** Intersection *)

(** The chain of conditional assignments of [Intersect] computes the
    [tightest_bound]; the result is replaced by the zero rectangle when it is
    empty. *)
Lemma Intersect_unfold (r s : Rectangle) :
  Rectangle_Intersect r s =
  if Rectangle_Empty (tightest_bound r s) then ZR else tightest_bound r s.
Proof.
  destruct r as [[a b] [c d]], s as [[a' b'] [c' d']].
  geom_unfold. geom_fields.
  repeat (geom_case; geom_fields); try reflexivity; try lia;
    repeat match goal with
    | H : _ |- _ => rewrite Z.max_l in H by lia
    | H : _ |- _ => rewrite Z.max_r in H by lia
    | H : _ |- _ => rewrite Z.min_l in H by lia
    | H : _ |- _ => rewrite Z.min_r in H by lia
    | |- _ => rewrite Z.max_l by lia
    | |- _ => rewrite Z.max_r by lia
    | |- _ => rewrite Z.min_l by lia
    | |- _ => rewrite Z.min_r by lia
    end; try reflexivity; try lia.
Qed.


(** C3: [Intersect(r, s)] is the rectangle of the component-wise maximum of
    the [Min] corners and minimum of the [Max] corners when that rectangle
    is not empty, and the all-zero rectangle when it is; the intersection of
    [Rect(0,0,10,10)] and [Rect(5,5,15,15)] is [Rect(5,5,10,10)].  No
    well-formedness of [r] or [s] is needed. *)
Theorem Intersect_tightest_or_zero (r s : Rectangle) :
  (Rectangle_Empty (tightest_bound r s) = false ->
     Rectangle_Intersect r s = tightest_bound r s)
  /\ (Rectangle_Empty (tightest_bound r s) = true ->
     Rectangle_Intersect r s = ZR)
  /\ Rectangle_Intersect (Rect 0 0 10 10) (Rect 5 5 15 15) = Rect 5 5 10 10.
Proof.
  split; [|split; [|reflexivity]]; intros He;
    rewrite Intersect_unfold, He; reflexivity.
Qed.

(** ** Equality of rectangles *)

Lemma Rectangle_Eq_true (r s : Rectangle) :
  Rectangle_Eq r s = true <->
  r = s \/ (Rectangle_Empty r = true /\ Rectangle_Empty s = true).
Proof.
  unfold Rectangle_Eq.
  rewrite orb_true_iff, andb_true_iff, rect_eqb_eq. reflexivity.
Qed.

(** C4: [Eq(r, s)] is true exactly when [r] and [s] are the same struct or
    both are empty; [Rect(5,5,5,5)] is [Eq] to the zero rectangle. *)
Theorem Rectangle_Eq_iff (r s : Rectangle) :
  (Rectangle_Eq r s = true <->
     r = s \/ (Rectangle_Empty r = true /\ Rectangle_Empty s = true))
  /\ Rectangle_Eq (Rect 5 5 5 5) ZR = true.
Proof. split; [apply Rectangle_Eq_true | reflexivity]. Qed.



(** ** Empty operands *)






(** ** Commutativity *)



Lemma Union_two_empties :
  Rectangle_Union (mkRectangle (Pt 1 1) (Pt 1 1)) ZR = ZR
  /\ Rectangle_Union ZR (mkRectangle (Pt 1 1) (Pt 1 1))
     = mkRectangle (Pt 1 1) (Pt 1 1).
Proof. split; reflexivity. Qed.


(** ** Overlap *)

Lemma Overlaps_tightest_bound (r s : Rectangle) :
  Rectangle_Overlaps r s = negb (Rectangle_Empty (tightest_bound r s)).
Proof.
  destruct (Rectangle_Empty (tightest_bound r s)) eqn:Hc.
  - apply Rectangle_Empty_true in Hc. revert Hc.
    destruct r as [[a b] [c d]], s as [[a' b'] [c' d']].
    unfold tightest_bound. cbn [X Y Min Max]. intros Hc.
    geom_unfold. geom_fields.
    repeat (geom_case; geom_fields); try reflexivity; lia.
  - apply Rectangle_Empty_false in Hc. revert Hc.
    destruct r as [[a b] [c d]], s as [[a' b'] [c' d']].
    unfold tightest_bound. cbn [X Y Min Max]. intros Hc.
    geom_unfold. geom_fields.
    repeat (geom_case; geom_fields); try reflexivity; lia.
Qed.


(** ** Inset *)

Lemma Inset_axes (t : Number) (r : Rectangle) (n : Z) :
  Rectangle_Inset t r n = Inset_spec t r n.
Proof.
  destruct r as [[a b] [c d]].
  unfold Rectangle_Inset, Inset_spec, inset_axis, Rectangle_Dx, Rectangle_Dy.
  cbn [X Y Min Max].
  destruct (sub t c a <? mul t 2 n);
    unfold set_MinX, set_MaxX, set_X; cbn [X Y Min Max];
    destruct (sub t d b <? mul t 2 n);
    unfold set_MinY, set_MaxY, set_Y; cbn [X Y Min Max fst snd]; reflexivity.
Qed.

(** C7: [Inset(r, n)] adds [n] to [Min] and subtracts [n] from [Max] on each
    axis independently, except that an axis whose dimension is less than
    [2n] gets both coordinates set to the midpoint [(Min+Max)/2];
    [Rect(0,0,10,10).Inset(6)] is [Rect(5,5,5,5)], in every integer type. *)
Theorem Inset_per_axis (t : Number) (r : Rectangle) (n : Z) :
  Rectangle_Inset t r n = Inset_spec t r n
  /\ Rectangle_Inset t (Rect 0 0 10 10) 6 = Rect 5 5 5 5.
Proof.
  split; [apply Inset_axes|]. destruct t; reflexivity.
Qed.

(** Where nothing overflows [V], the arithmetic of [inset_axis] is that of
    the integers. *)
Lemma inset_axis_exact (t : Number) (lo hi n : Z) :
  in_range t (hi - lo) -> in_range t (2 * n) -> in_range t (lo + hi) ->
  in_range t (lo + n) -> in_range t (hi - n) ->
  inset_axis t lo hi n =
  if hi - lo <? 2 * n
  then (Z.quot (lo + hi) 2, Z.quot (lo + hi) 2)
  else (lo + n, hi - n).
Proof.
  intros Hd H2 Hs Ha Hb. unfold inset_axis, sub, mul, add, quo.
  rewrite (wrap_id t _ Hd), (wrap_id t _ H2), (wrap_id t _ Hs),
    (wrap_id t _ Ha), (wrap_id t _ Hb).
  destruct (hi - lo <? 2 * n); [|reflexivity].
  assert (Hq : in_range t (Z.quot (lo + hi) 2)).
  { pose proof (in_range_0 t) as H0. unfold in_range in *.
    destruct (Z_le_gt_dec 0 (lo + hi)) as [Hp|Hp].
    - pose proof (Z.quot_pos (lo + hi) 2 Hp ltac:(lia)).
      pose proof (Z.quot_le_upper_bound (lo + hi) 2 (lo + hi)
                    ltac:(lia) ltac:(lia)). lia.
    - assert (Hopp : Z.quot (lo + hi) 2 = - Z.quot (- (lo + hi)) 2)
        by (rewrite Z.quot_opp_l by lia; lia).
      pose proof (Z.quot_pos (- (lo + hi)) 2 ltac:(lia) ltac:(lia)).
      pose proof (Z.quot_le_upper_bound (- (lo + hi)) 2 (- (lo + hi))
                    ltac:(lia) ltac:(lia)). lia. }
  rewrite (wrap_id t _ Hq). reflexivity.
Qed.

(** [Inset(r, 0)] on one axis: unchanged unless the computed dimension is
    negative, where the axis collapses. *)
Lemma inset_axis_zero (t : Number) (lo hi : Z) :
  in_range t lo -> in_range t hi ->
  inset_axis t lo hi 0 =
  if sub t hi lo <? 0
  then (quo t (add t lo hi) 2, quo t (add t lo hi) 2)
  else (lo, hi).
Proof.
  intros Hlo Hhi. unfold inset_axis.
  rewrite mul_2_0, add_0_r, sub_0_r by assumption. reflexivity.
Qed.

(** C9 (amended): for every rectangle [r] of [V] whose width
    [Max.X - Min.X] and height [Max.Y - Min.Y] do not overflow [V],
    [Inset(r, 0)] equals [r] in the sense of [Eq], and is [r] itself when
    [r] is well-formed. *)
Theorem Inset_zero (t : Number) (r : Rectangle)
    (Hr : rect_in_range t r)
    (Hdx : in_range t (X (Max r) - X (Min r)))
    (Hdy : in_range t (Y (Max r) - Y (Min r))) :
  Rectangle_Eq (Rectangle_Inset t r 0) r = true
  /\ (well_formed r -> Rectangle_Inset t r 0 = r).
Proof.
  rewrite Inset_axes. unfold Inset_spec.
  destruct r as [[a b] [c d]].
  destruct Hr as [[Ha Hb] [Hc Hd]]. cbn [X Y Min Max] in *.
  rewrite !inset_axis_zero by assumption.
  unfold sub. rewrite !wrap_id by assumption.
  split.
  - apply Rectangle_Eq_true.
    destruct (Z.ltb_spec (c - a) 0), (Z.ltb_spec (d - b) 0);
      cbn [fst snd];
      try (left; reflexivity);
      right; rewrite !Rectangle_Empty_true; cbn [X Y Min Max]; lia.
  - unfold well_formed. cbn [X Y Min Max]. intros [Hx Hy].
    destruct (Z.ltb_spec (c - a) 0), (Z.ltb_spec (d - b) 0);
      cbn [fst snd]; try lia. reflexivity.
Qed.

Lemma Inset_zero_witness :
  Rectangle_Eq (Rectangle_Inset TInt (Rect 0 0 10 10) 0) (Rect 0 0 10 10) = true
  /\ (well_formed (Rect 0 0 10 10) ->
      Rectangle_Inset TInt (Rect 0 0 10 10) 0 = Rect 0 0 10 10).
Proof.
  apply (Inset_zero TInt (Rect 0 0 10 10));
    unfold rect_in_range, point_in_range, in_range, min_val, max_val;
    simpl; lia.
Defined.

(** Exactly when [Inset(r, 0)] is [Eq] to [r]: when no computed dimension
    is negative, or [r] is empty. *)
Lemma Inset_zero_Eq_iff (t : Number) (r : Rectangle) :
  rect_in_range t r ->
  Rectangle_Eq (Rectangle_Inset t r 0) r = true <->
  (0 <= Rectangle_Dx t r /\ 0 <= Rectangle_Dy t r)
  \/ Rectangle_Empty r = true.
Proof.
  intros Hr. rewrite Inset_axes.
  unfold Inset_spec, Rectangle_Dx, Rectangle_Dy.
  destruct r as [[a b] [c d]].
  destruct Hr as [[Ha Hb] [Hc Hd]]. cbn [X Y Min Max] in *.
  rewrite !inset_axis_zero by assumption.
  rewrite Rectangle_Eq_true, !Rectangle_Empty_true.
  destruct (Z.ltb_spec (sub t c a) 0), (Z.ltb_spec (sub t d b) 0);
    cbn [fst snd X Y Min Max];
    (split;
     [ intros [Heq|He]; [try (injection Heq; intros) | ]; lia
     | intros [Hd0|He]; try lia; try (left; reflexivity); right; lia ]).
Qed.

(** C9 as stated fails: in [int8] the width of the well-formed and non-empty
    rectangle (-100,0)-(100,1) wraps around to -56, so that [Inset] by 0
    collapses its X axis and returns an empty rectangle. *)
Lemma Inset_zero_overflow :
  rect_in_range TInt8 (mkRectangle (Pt (-100) 0) (Pt 100 1))
  /\ well_formed (mkRectangle (Pt (-100) 0) (Pt 100 1))
  /\ Rectangle_Inset TInt8 (mkRectangle (Pt (-100) 0) (Pt 100 1)) 0
     = mkRectangle (Pt 0 0) (Pt 0 1)
  /\ Rectangle_Eq
       (Rectangle_Inset TInt8 (mkRectangle (Pt (-100) 0) (Pt 100 1)) 0)
       (mkRectangle (Pt (-100) 0) (Pt 100 1)) = false.
Proof.
  split; [|split; [|split; reflexivity]].
  - unfold rect_in_range, point_in_range, in_range, min_val, max_val;
      simpl; lia.
  - unfold well_formed; simpl; lia.
Qed.

(** Without overflow, an ill-formed rectangle of a signed type is not
    returned as it is (the result is [Eq] to it, both being empty). *)
Lemma Inset_zero_ill_formed :
  Rectangle_Inset TInt (mkRectangle (Pt 4 0) (Pt 0 4)) 0
  = mkRectangle (Pt 2 0) (Pt 2 4).
Proof. reflexivity. Qed.

(** ** Mod *)

Lemma Point_Mod_axes (t : Number) (p : Point) (r : Rectangle) :
  Point_Mod t p r =
  mkPoint (mod_axis t (X p) (X (Min r)) (X (Max r)))
          (mod_axis t (Y p) (Y (Min r)) (Y (Max r))).
Proof.
  destruct p as [x y], r as [[a b] [c d]].
  unfold Point_Mod, Point_Sub, Point_Add, Rectangle_Dx, Rectangle_Dy, mod_axis.
  cbn [X Y Min Max].
  destruct (sub t x a <? 0); unfold set_X; cbn [X Y];
    destruct (sub t y b <? 0); unfold set_Y; cbn [X Y]; reflexivity.
Qed.

(** Within one dimension below [lo] and up to [hi], and without overflow,
    [mod_axis] does wrap into [lo, hi). *)
Lemma mod_axis_one_period (t : Number) (v lo hi : Z) :
  in_range t v -> in_range t lo -> in_range t hi ->
  in_range t (hi - lo) -> in_range t (v - lo) ->
  lo - (hi - lo) <= v < hi ->
  lo <= mod_axis t v lo hi < hi
  /\ (mod_axis t v lo hi = v \/ mod_axis t v lo hi = v + (hi - lo)).
Proof.
  intros Hv Hlo Hhi Hw Hd Hper. unfold mod_axis, sub, add.
  rewrite (wrap_id t _ Hw), (wrap_id t _ Hd).
  pose proof (in_range_0 t) as H0.
  destruct (Z.ltb_spec (v - lo) 0).
  - rewrite (wrap_id t (v - lo + (hi - lo)))
      by (apply (in_range_between t 0 (hi - lo)); auto; lia).
    rewrite wrap_id
      by (apply (in_range_between t lo hi); auto; lia).
    lia.
  - rewrite wrap_id by (apply (in_range_between t lo hi); auto; lia).
    lia.
Qed.

(** Above [hi] nothing is subtracted: the point is returned as it is. *)
Lemma mod_axis_above (t : Number) (v lo : Z) (hi : Z) :
  in_range t v -> in_range t (v - lo) -> lo <= v ->
  mod_axis t v lo hi = v.
Proof.
  intros Hv Hd Hle. unfold mod_axis, sub, add.
  rewrite (wrap_id t _ Hd).
  destruct (Z.ltb_spec (v - lo) 0); [lia|].
  replace (v - lo + lo) with v by lia. apply wrap_id, Hv.
Qed.

(** C1: [Mod(p, r)] is documented to return the point of [r] congruent to
    [p]; the code takes no remainder, and in every integer type returns
    [Pt(25,3)] itself for [Rect(0,0,10,10)], a point that is not in [r]. *)
Theorem Point_Mod_leaves_rectangle (t : Number) :
  Point_Mod t (Pt 25 3) (Rect 0 0 10 10) = Pt 25 3
  /\ Point_In (Point_Mod t (Pt 25 3) (Rect 0 0 10 10)) (Rect 0 0 10 10)
     = false
  /\ Rectangle_Empty (Rect 0 0 10 10) = false
  /\ well_formed (Rect 0 0 10 10).
Proof.
  split; [|split; [|split]].
  - destruct t; reflexivity.
  - destruct t; reflexivity.
  - reflexivity.
  - unfold well_formed; simpl; lia.
Qed.

(** Below [r] by more than one dimension the result is outside too. *)
Lemma Point_Mod_far_below :
  Point_Mod TInt (Pt (-25) 3) (Rect 0 0 10 10) = Pt (-15) 3.
Proof. reflexivity. Qed.

(** * Further properties of the rectangle algebra *)

(** ** Rectangles as sets of points *)

Lemma Point_In_iff (p : Point) (r : Rectangle) :
  Point_In p r = true <->
  X (Min r) <= X p < X (Max r) /\ Y (Min r) <= Y p < Y (Max r).
Proof. destruct p as [x y], r as [[a b] [c d]]. geom_solve. Qed.


Lemma Rectangle_In_iff (r s : Rectangle) :
  Rectangle_In r s = true <->
  Rectangle_Empty r = true
  \/ (X (Min s) <= X (Min r) /\ X (Max r) <= X (Max s)
      /\ Y (Min s) <= Y (Min r) /\ Y (Max r) <= Y (Max s)).
Proof.
  unfold Rectangle_In. destruct (Rectangle_Empty r).
  - split; [left; reflexivity | reflexivity].
  - rewrite !andb_true_iff, !Z.leb_le. split.
    + intros [[[H1 H2] H3] H4]. right. auto.
    + intros [H|H]; [discriminate H | tauto].
Qed.

Lemma rect_eq_coords (r s : Rectangle) :
  r = s <->
  X (Min r) = X (Min s) /\ Y (Min r) = Y (Min s)
  /\ X (Max r) = X (Max s) /\ Y (Max r) = Y (Max s).
Proof.
  destruct r as [[a b] [c d]], s as [[a' b'] [c' d']]. cbn [X Y Min Max].
  split.
  - intros H. injection H. intros. auto.
  - intros (-> & -> & -> & ->). reflexivity.
Qed.




(** X2: [Rect(x0, y0, x1, y1)] is the canonical form of the struct literal
    with corners (x0,y0) and (x1,y1). *)
Theorem Rect_is_Canon (x0 y0 x1 y1 : Z) :
  Rect x0 y0 x1 y1 = Rectangle_Canon (mkRectangle (Pt x0 y0) (Pt x1 y1)).
Proof.
  unfold Rect, Rectangle_Canon, Pt, set_X, set_Y. cbn [X Y Min Max].
  rewrite !Z.gtb_ltb.
  destruct (x1 <? x0); cbn [X Y Min Max];
    destruct (y1 <? y0); reflexivity.
Qed.




(** X5: containment both ways is [Eq]: [r.In(s) && s.In(r)] equals
    [r.Eq(s)]. *)
Theorem In_both_ways_is_Eq (r s : Rectangle) :
  Rectangle_In r s && Rectangle_In s r = Rectangle_Eq r s.
Proof.
  apply eq_true_iff_eq.
  rewrite andb_true_iff, !Rectangle_In_iff, Rectangle_Eq_true,
    rect_eq_coords.
  destruct (Rectangle_Empty r) eqn:Hr, (Rectangle_Empty s) eqn:Hs;
    try apply Rectangle_Empty_true in Hr; try apply Rectangle_Empty_true in Hs;
    try apply Rectangle_Empty_false in Hr;
    try apply Rectangle_Empty_false in Hs;
    split; intros H;
    repeat match goal with
    | H : _ /\ _ |- _ => destruct H
    | H : _ \/ _ |- _ => destruct H
    | H : true = false |- _ => discriminate H
    | H : false = true |- _ => discriminate H
    end;
    try lia;
    try (right; split; reflexivity);
    try (split; [(left; reflexivity) || (right; lia)
                | (left; reflexivity) || (right; lia)]);
    try (left; lia).
Qed.


(** ** Intersection and union as meet and join *)









(** X11: [Overlaps(r, s)] is true exactly when some point is in both [r]
    and [s]. *)
Theorem Overlaps_iff_common_point (r s : Rectangle) :
  Rectangle_Overlaps r s = true <->
  exists p, Point_In p r = true /\ Point_In p s = true.
Proof.
  rewrite Overlaps_tightest_bound, negb_true_iff, Rectangle_Empty_false.
  unfold tightest_bound. cbn [X Y Min Max]. split.
  - intros H.
    exists (mkPoint (Z.max (X (Min r)) (X (Min s)))
                    (Z.max (Y (Min r)) (Y (Min s)))).
    rewrite !Point_In_iff. cbn [X Y]. lia.
  - intros (p & Hr & Hs). apply Point_In_iff in Hr, Hs. lia.
Qed.






Lemma Empty_widest_r (r s : Rectangle) :
  Rectangle_Empty s = false -> Rectangle_Empty (widest_bound r s) = false.
Proof.
  rewrite !Rectangle_Empty_false. unfold widest_bound. cbn [X Y Min Max]. lia.
Qed.





(** ** Wrap-around arithmetic *)

Section Modular.
Variable t : Number.

Lemma wrap_shift (z : Z) : exists k, wrap t z = z + k * 2 ^ bits t.
Proof.
  destruct (two_pow_bits_pos t) as [Hpos Hdbl]. unfold wrap.
  destruct (is_signed t).
  - exists (- ((z + 2 ^ (bits t - 1)) / 2 ^ bits t)).
    rewrite Z.mod_eq by lia. ring.
  - exists (- (z / 2 ^ bits t)). rewrite Z.mod_eq by lia. ring.
Qed.

Lemma wrap_congr (a b k : Z) : a = b + k * 2 ^ bits t -> wrap t a = wrap t b.
Proof.
  intros ->. unfold wrap. destruct (is_signed t).
  - replace (b + k * 2 ^ bits t + 2 ^ (bits t - 1))
      with (b + 2 ^ (bits t - 1) + k * 2 ^ bits t) by ring.
    rewrite Z_mod_plus_full. reflexivity.
  - apply Z_mod_plus_full.
Qed.

Lemma sub_add_cancel (a b : Z) : in_range t a -> sub t (add t a b) b = a.
Proof.
  intros Ha. unfold sub, add.
  destruct (wrap_shift (a + b)) as [k ->].
  rewrite (wrap_congr _ a k) by ring. apply wrap_id, Ha.
Qed.

Lemma add_sub_cancel (a b : Z) : in_range t a -> add t (sub t a b) b = a.
Proof.
  intros Ha. unfold sub, add.
  destruct (wrap_shift (a - b)) as [k ->].
  rewrite (wrap_congr _ a k) by ring. apply wrap_id, Ha.
Qed.

Lemma add_comm (a b : Z) : add t a b = add t b a.
Proof. unfold add. rewrite Z.add_comm. reflexivity. Qed.

Lemma add_assoc (a b c : Z) : add t (add t a b) c = add t a (add t b c).
Proof.
  unfold add.
  destruct (wrap_shift (a + b)) as [k ->], (wrap_shift (b + c)) as [k' ->].
  apply (wrap_congr _ _ (k - k')). ring.
Qed.

Lemma mul_add_distr (a b k : Z) :
  mul t (add t a b) k = add t (mul t a k) (mul t b k).
Proof.
  unfold add, mul.
  destruct (wrap_shift (a + b)) as [k1 ->], (wrap_shift (a * k)) as [k2 ->],
    (wrap_shift (b * k)) as [k3 ->].
  apply (wrap_congr _ _ (k1 * k - k2 - k3)). ring.
Qed.

Lemma sub_translated (a b x : Z) :
  sub t (add t a x) (add t b x) = sub t a b.
Proof.
  unfold add, sub.
  destruct (wrap_shift (a + x)) as [k1 ->], (wrap_shift (b + x)) as [k2 ->].
  apply (wrap_congr _ _ (k1 - k2)). ring.
Qed.

Lemma quo_mul_cancel (a k : Z) :
  k <> 0 -> in_range t a -> in_range t (a * k) -> quo t (mul t a k) k = a.
Proof.
  intros Hk Ha Hak. unfold quo, mul.
  rewrite (wrap_id t _ Hak), Z.quot_mul by exact Hk. apply wrap_id, Ha.
Qed.
End Modular.

(** ** Point arithmetic and translation *)

(** X15: point addition is commutative and associative and scaling
    distributes over it, overflow included. *)
Theorem Point_Add_laws (t : Number) (p q u : Point) (k : Z) :
  Point_Add t p q = Point_Add t q p
  /\ Point_Add t (Point_Add t p q) u = Point_Add t p (Point_Add t q u)
  /\ Point_Mul t (Point_Add t p q) k
     = Point_Add t (Point_Mul t p k) (Point_Mul t q k).
Proof.
  unfold Point_Add, Point_Mul. cbn [X Y].
  split; [|split].
  - rewrite (add_comm t (X p)), (add_comm t (Y p)). reflexivity.
  - rewrite !add_assoc. reflexivity.
  - rewrite !mul_add_distr. reflexivity.
Qed.

(** X16: for a point [p] of [V], [p.Add(q).Sub(q)] and [p.Sub(q).Add(q)]
    are [p], whatever overflows in between. *)
Theorem Point_Add_Sub_round_trip (t : Number) (p q : Point)
    (Hp : point_in_range t p) :
  Point_Sub t (Point_Add t p q) q = p
  /\ Point_Add t (Point_Sub t p q) q = p.
Proof.
  destruct p as [x y], Hp as [Hx Hy]. cbn [X Y] in *.
  unfold Point_Add, Point_Sub. cbn [X Y].
  rewrite !sub_add_cancel, !add_sub_cancel by assumption.
  split; reflexivity.
Qed.

Lemma Point_Add_Sub_round_trip_witness :
  Point_Sub TInt8 (Point_Add TInt8 (Pt 100 (-100)) (Pt 100 (-100)))
            (Pt 100 (-100)) = Pt 100 (-100)
  /\ Point_Add TInt8 (Point_Sub TInt8 (Pt 100 (-100)) (Pt 100 (-100)))
               (Pt 100 (-100)) = Pt 100 (-100).
Proof.
  apply (Point_Add_Sub_round_trip TInt8 (Pt 100 (-100)) (Pt 100 (-100))).
  unfold point_in_range, in_range, min_val, max_val; simpl; lia.
Defined.

(** X17: translating a rectangle never changes its size, and for a
    rectangle [r] of [V], [r.Add(p).Sub(p)] is [r]; both hold with
    overflow. *)
Theorem Rectangle_Add_Size_round_trip (t : Number) (r : Rectangle)
    (p : Point) (Hr : rect_in_range t r) :
  Rectangle_Size t (Rectangle_Add t r p) = Rectangle_Size t r
  /\ Rectangle_Dx t (Rectangle_Add t r p) = Rectangle_Dx t r
  /\ Rectangle_Dy t (Rectangle_Add t r p) = Rectangle_Dy t r
  /\ Rectangle_Sub t (Rectangle_Add t r p) p = r.
Proof.
  destruct r as [[a b] [c d]], Hr as [[Ha Hb] [Hc Hd]]. cbn [X Y Min Max] in *.
  unfold Rectangle_Size, Rectangle_Dx, Rectangle_Dy, Rectangle_Add,
    Rectangle_Sub. cbn [X Y Min Max].
  rewrite !sub_translated, !sub_add_cancel by assumption.
  repeat split; reflexivity.
Qed.

Lemma Rectangle_Add_Size_round_trip_witness :
  Rectangle_Size TInt8 (Rectangle_Add TInt8 (Rect 0 0 100 100) (Pt 50 50))
  = Rectangle_Size TInt8 (Rect 0 0 100 100)
  /\ Rectangle_Dx TInt8 (Rectangle_Add TInt8 (Rect 0 0 100 100) (Pt 50 50))
     = Rectangle_Dx TInt8 (Rect 0 0 100 100)
  /\ Rectangle_Dy TInt8 (Rectangle_Add TInt8 (Rect 0 0 100 100) (Pt 50 50))
     = Rectangle_Dy TInt8 (Rect 0 0 100 100)
  /\ Rectangle_Sub TInt8 (Rectangle_Add TInt8 (Rect 0 0 100 100) (Pt 50 50))
                   (Pt 50 50) = Rect 0 0 100 100.
Proof.
  apply (Rectangle_Add_Size_round_trip TInt8 (Rect 0 0 100 100) (Pt 50 50)).
  unfold rect_in_range, point_in_range, in_range, min_val, max_val;
    simpl; lia.
Defined.

(** X18: where the translated coordinates do not overflow [V], translating
    a point and a rectangle by the same [q] preserves membership. *)
Theorem Point_In_translated (t : Number) (p q : Point) (r : Rectangle)
    (Hp : point_in_range t (mkPoint (X p + X q) (Y p + Y q)))
    (Hmin : point_in_range t
              (mkPoint (X (Min r) + X q) (Y (Min r) + Y q)))
    (Hmax : point_in_range t
              (mkPoint (X (Max r) + X q) (Y (Max r) + Y q))) :
  Point_In (Point_Add t p q) (Rectangle_Add t r q) = Point_In p r.
Proof.
  destruct Hp as [Hpx Hpy], Hmin as [Hax Hay], Hmax as [Hcx Hcy].
  cbn [X Y] in *.
  apply eq_true_iff_eq. rewrite !Point_In_iff.
  unfold Point_Add, Rectangle_Add, add. cbn [X Y Min Max].
  rewrite (wrap_id t _ Hpx), (wrap_id t _ Hpy), (wrap_id t _ Hax),
    (wrap_id t _ Hay), (wrap_id t _ Hcx), (wrap_id t _ Hcy).
  lia.
Qed.

Lemma Point_In_translated_witness :
  Point_In (Point_Add TInt (Pt 2 2) (Pt 7 (-3)))
           (Rectangle_Add TInt (Rect 0 0 5 5) (Pt 7 (-3)))
  = Point_In (Pt 2 2) (Rect 0 0 5 5).
Proof.
  apply (Point_In_translated TInt (Pt 2 2) (Pt 7 (-3)) (Rect 0 0 5 5));
    unfold point_in_range, in_range, min_val, max_val; simpl; lia.
Defined.

(** X19: [Div] by zero fails; for [k <> 0] and a point [p] of [V] whose
    scaling by [k] does not overflow, [p.Mul(k).Div(k)] is [p]. *)
Theorem Point_Mul_Div_round_trip (t : Number) (p : Point) (k : Z)
    (Hk : k <> 0) (Hp : point_in_range t p)
    (Hpk : point_in_range t (mkPoint (X p * k) (Y p * k))) :
  Point_Div t p 0 = None
  /\ Point_Div t (Point_Mul t p k) k = Some p.
Proof.
  split; [reflexivity|].
  destruct p as [x y], Hp as [Hx Hy], Hpk as [Hxk Hyk]. cbn [X Y] in *.
  unfold Point_Div, Point_Mul. cbn [X Y].
  destruct (Z.eqb_spec k 0) as [->|_]; [contradiction Hk; reflexivity|].
  rewrite !quo_mul_cancel by assumption. reflexivity.
Qed.

Lemma Point_Mul_Div_round_trip_witness :
  Point_Div TInt16 (Pt 7 (-9)) 0 = None
  /\ Point_Div TInt16 (Point_Mul TInt16 (Pt 7 (-9)) (-3)) (-3)
     = Some (Pt 7 (-9)).
Proof.
  apply (Point_Mul_Div_round_trip TInt16 (Pt 7 (-9)) (-3));
    [lia | |];
    unfold point_in_range, in_range, min_val, max_val; simpl; lia.
Defined.

(** ** Inset, continued *)

Lemma inset_axis_undo (t : Number) (lo hi n : Z) :
  inset_fits t lo hi n -> inset_fits t (lo + n) (hi - n) (- n) ->
  0 <= hi - lo -> 2 * n <= hi - lo ->
  inset_axis t lo hi n = (lo + n, hi - n)
  /\ inset_axis t (lo + n) (hi - n) (- n) = (lo, hi).
Proof.
  intros (H1 & H2 & H3 & H4 & H5) (H1' & H2' & H3' & H4' & H5') Hwf Hn.
  rewrite !inset_axis_exact by assumption.
  destruct (Z.ltb_spec (hi - lo) (2 * n)); [lia|].
  destruct (Z.ltb_spec (hi - n - (lo + n)) (2 * - n)); [lia|].
  split; [reflexivity|]. f_equal; lia.
Qed.

(** X20: if a dimension of [r] is less than [2*n], as [Inset] computes
    them, then [Inset(r, n)] is empty. *)
Theorem Inset_small_dimension_empty (t : Number) (r : Rectangle) (n : Z)
    (Hsmall : (Rectangle_Dx t r <? mul t 2 n)
              || (Rectangle_Dy t r <? mul t 2 n) = true) :
  Rectangle_Empty (Rectangle_Inset t r n) = true.
Proof.
  rewrite Inset_axes. apply Rectangle_Empty_true.
  unfold Inset_spec, inset_axis, Rectangle_Dx, Rectangle_Dy in *.
  cbn [X Y Min Max].
  destruct (sub t (X (Max r)) (X (Min r)) <? mul t 2 n);
    destruct (sub t (Y (Max r)) (Y (Min r)) <? mul t 2 n);
    cbn [fst snd orb] in *; try discriminate Hsmall; lia.
Qed.

Lemma Inset_small_dimension_empty_witness :
  Rectangle_Empty (Rectangle_Inset TUint8 (Rect 0 0 10 30) 6) = true.
Proof.
  apply (Inset_small_dimension_empty TUint8 (Rect 0 0 10 30) 6).
  reflexivity.
Defined.

(** X21: where no operation of [Inset] overflows [V], [Inset(r, n)] is
    well-formed and its points are exactly the points at distance at least
    [n] inside [r] on every side. *)
Theorem Inset_points (t : Number) (r : Rectangle) (n : Z)
    (Hx : inset_fits t (X (Min r)) (X (Max r)) n)
    (Hy : inset_fits t (Y (Min r)) (Y (Max r)) n) :
  well_formed (Rectangle_Inset t r n)
  /\ forall p,
       Point_In p (Rectangle_Inset t r n) = true <->
       X (Min r) + n <= X p < X (Max r) - n
       /\ Y (Min r) + n <= Y p < Y (Max r) - n.
Proof.
  destruct Hx as (H1 & H2 & H3 & H4 & H5), Hy as (H1' & H2' & H3' & H4' & H5').
  rewrite Inset_axes. unfold Inset_spec, well_formed.
  rewrite !inset_axis_exact by assumption.
  destruct (Z.ltb_spec (X (Max r) - X (Min r)) (2 * n));
    destruct (Z.ltb_spec (Y (Max r) - Y (Min r)) (2 * n));
    cbn [X Y Min Max fst snd];
    (split; [lia | intros p; rewrite Point_In_iff; cbn [X Y Min Max]; lia]).
Qed.

Lemma Inset_points_witness :
  well_formed (Rectangle_Inset TInt8 (Rect 0 0 10 20) 3)
  /\ forall p,
       Point_In p (Rectangle_Inset TInt8 (Rect 0 0 10 20) 3) = true <->
       X (Min (Rect 0 0 10 20)) + 3 <= X p < X (Max (Rect 0 0 10 20)) - 3
       /\ Y (Min (Rect 0 0 10 20)) + 3 <= Y p
          < Y (Max (Rect 0 0 10 20)) - 3.
Proof.
  apply (Inset_points TInt8 (Rect 0 0 10 20) 3);
    unfold inset_fits, in_range, min_val, max_val; simpl; lia.
Defined.

(** X22: for a well-formed [r] with both dimensions at least [2*n], and no
    overflow, insetting by [n] and then by [-n] gives [r] back. *)
Theorem Inset_undo (t : Number) (r : Rectangle) (n : Z)
    (Hx : inset_fits t (X (Min r)) (X (Max r)) n)
    (Hy : inset_fits t (Y (Min r)) (Y (Max r)) n)
    (Hx' : inset_fits t (X (Min r) + n) (X (Max r) - n) (- n))
    (Hy' : inset_fits t (Y (Min r) + n) (Y (Max r) - n) (- n))
    (Hwf : well_formed r)
    (Hdx : 2 * n <= X (Max r) - X (Min r))
    (Hdy : 2 * n <= Y (Max r) - Y (Min r)) :
  Rectangle_Inset t (Rectangle_Inset t r n) (- n) = r.
Proof.
  destruct Hwf as [Hwx Hwy].
  destruct (inset_axis_undo t _ _ n Hx Hx' ltac:(lia) Hdx) as [Ex Ex'].
  destruct (inset_axis_undo t _ _ n Hy Hy' ltac:(lia) Hdy) as [Ey Ey'].
  rewrite !Inset_axes. unfold Inset_spec at 2. rewrite Ex, Ey.
  unfold Inset_spec. cbn [X Y Min Max fst snd]. rewrite Ex', Ey'.
  destruct r as [[a b] [c d]]. reflexivity.
Qed.

Lemma Inset_undo_witness :
  Rectangle_Inset TInt8 (Rectangle_Inset TInt8 (Rect 0 0 10 20) 3) (- 3)
  = Rect 0 0 10 20.
Proof.
  apply (Inset_undo TInt8 (Rect 0 0 10 20) 3);
    unfold inset_fits, well_formed, in_range, min_val, max_val; simpl; lia.
Defined.

(** ** Conversion to the standard library's types *)

Lemma in_range_int (t : Number) (z : Z) :
  is_signed t = true \/ bits t < 64 -> in_range t z -> in_range TInt z.
Proof.
  unfold in_range, min_val, max_val.
  destruct t; cbn; intros [Hs|Hb] Hz; try discriminate Hs; lia.
Qed.

(** X23: for every signed type and every unsigned type narrower than 64
    bits, [Std] returns the coordinates of a point or rectangle of [V]
    unchanged. *)
Theorem Std_exact (t : Number) (p : Point) (r : Rectangle)
    (Ht : is_signed t = true \/ bits t < 64)
    (Hp : point_in_range t p) (Hr : rect_in_range t r) :
  Point_Std p = p /\ Rectangle_Std r = r.
Proof.
  assert (Hpt : forall q, point_in_range t q -> Point_Std q = q).
  { intros [x y] [Hx Hy]. cbn [X Y] in *. unfold Point_Std. cbn [X Y].
    rewrite !wrap_id by (apply (in_range_int t); assumption). reflexivity. }
  split; [apply Hpt, Hp|].
  destruct r as [m M], Hr as [Hm HM]. cbn [Min Max] in *.
  unfold Rectangle_Std. cbn [Min Max].
  rewrite (Hpt m Hm), (Hpt M HM). reflexivity.
Qed.

Lemma Std_exact_witness :
  Point_Std (Pt 200 7) = Pt 200 7
  /\ Rectangle_Std (Rect 0 0 255 255) = Rect 0 0 255 255.
Proof.
  apply (Std_exact TUint8 (Pt 200 7) (Rect 0 0 255 255));
    [right; simpl; lia | |];
    unfold rect_in_range, point_in_range, in_range, min_val, max_val;
    simpl; lia.
Defined.

(** ** Mod, continued *)

(** X24: for a point [p] that lies in [r] or less than one width and height
    below [r.Min], and without overflow, [Mod(p, r)] is in [r], differs from
    [p] by zero or one dimension on each axis, and is [p] itself when [p] is
    in [r]. *)
Theorem Point_Mod_one_period (t : Number) (p : Point) (r : Rectangle)
    (Hp : point_in_range t p) (Hr : rect_in_range t r)
    (Hw : point_in_range t
            (mkPoint (X (Max r) - X (Min r)) (Y (Max r) - Y (Min r))))
    (Hd : point_in_range t (mkPoint (X p - X (Min r)) (Y p - Y (Min r))))
    (Hx : X (Min r) - (X (Max r) - X (Min r)) <= X p < X (Max r))
    (Hy : Y (Min r) - (Y (Max r) - Y (Min r)) <= Y p < Y (Max r)) :
  Point_In (Point_Mod t p r) r = true
  /\ (X (Point_Mod t p r) = X p
      \/ X (Point_Mod t p r) = X p + (X (Max r) - X (Min r)))
  /\ (Y (Point_Mod t p r) = Y p
      \/ Y (Point_Mod t p r) = Y p + (Y (Max r) - Y (Min r)))
  /\ (Point_In p r = true -> Point_Mod t p r = p).
Proof.
  destruct Hp as [Hpx Hpy], Hr as [[Hax Hay] [Hcx Hcy]], Hw as [Hwx Hwy],
    Hd as [Hdx Hdy]. cbn [X Y] in *.
  rewrite Point_Mod_axes, Point_In_iff. cbn [X Y].
  destruct (mod_axis_one_period t (X p) (X (Min r)) (X (Max r)))
    as [Bx Ex]; auto.
  destruct (mod_axis_one_period t (Y p) (Y (Min r)) (Y (Max r)))
    as [By Ey]; auto.
  repeat split; auto; try lia.
  intros Hin. apply Point_In_iff in Hin.
  rewrite !mod_axis_above by (auto; lia).
  destruct p; reflexivity.
Qed.

Lemma Point_Mod_one_period_witness :
  Point_In (Point_Mod TInt8 (Pt (-3) 4) (Rect 0 0 10 10)) (Rect 0 0 10 10)
  = true
  /\ (X (Point_Mod TInt8 (Pt (-3) 4) (Rect 0 0 10 10)) = X (Pt (-3) 4)
      \/ X (Point_Mod TInt8 (Pt (-3) 4) (Rect 0 0 10 10))
         = X (Pt (-3) 4)
           + (X (Max (Rect 0 0 10 10)) - X (Min (Rect 0 0 10 10))))
  /\ (Y (Point_Mod TInt8 (Pt (-3) 4) (Rect 0 0 10 10)) = Y (Pt (-3) 4)
      \/ Y (Point_Mod TInt8 (Pt (-3) 4) (Rect 0 0 10 10))
         = Y (Pt (-3) 4)
           + (Y (Max (Rect 0 0 10 10)) - Y (Min (Rect 0 0 10 10))))
  /\ (Point_In (Pt (-3) 4) (Rect 0 0 10 10) = true ->
      Point_Mod TInt8 (Pt (-3) 4) (Rect 0 0 10 10) = Pt (-3) 4).
Proof.
  apply (Point_Mod_one_period TInt8 (Pt (-3) 4) (Rect 0 0 10 10));
    unfold rect_in_range, point_in_range, in_range, min_val, max_val;
    simpl; lia.
Defined.

(** ** Disjoint rectangles *)

